(** * mcp-graphql-schema: the tool handlers of [src/index.mjs]

    A shallow embedding of the server script.  The script loads one GraphQL
    schema at start-up, registers a fixed set of tools whose handlers close
    over that schema, and serves them.  Every handler is a synchronous
    function from (schema, validated arguments) to a text payload.

    The collaborators the script imports (the host's [RegExp], graphql-js's
    [print] and [buildSchema], node's [readFile] and [path.resolve]) are not
    part of the repository: they are interfaces here ([Host], [Env]), and the
    handlers are written once, over any implementation of them.  A reference
    implementation for a fragment of the ECMAScript pattern language is given
    in [Module Reference] so that the handlers can be run on concrete
    inputs. *)

From Stdlib Require Import String Ascii List Bool Arith Lia.
Import ListNotations.
Open Scope list_scope.
Open Scope string_scope.

Set Implicit Arguments.

(* ================================================================== *)
(** * JavaScript values used by the script *)
(* ================================================================== *)

(** The line feed, written [\n] in the source's template literals. *)
Definition LF_char : ascii := "010"%char.
Definition LF : string := String LF_char "".

(** The double quote, written inside the source's template literals. *)
Definition DQUOTE : string := String "034"%char "".

(** [Array.prototype.join] on an array of strings. *)
Definition join (sep : string) (xs : list string) : string :=
  String.concat sep xs.

(** [String.prototype.startsWith]. *)
Definition startsWith (s searchString : string) : bool :=
  String.prefix searchString s.

(** [Array.prototype.includes] on an array of strings. *)
Definition includes (xs : list string) (x : string) : bool :=
  existsb (String.eqb x) xs.

(** [s || d] on strings: the empty string is the only falsy string. *)
Definition js_or (s d : string) : string :=
  if String.eqb s "" then d else s.

(** [a ?? d]: [undefined] is [None]. *)
Definition nullish {A : Type} (a : option A) (d : A) : A :=
  match a with
  | Some x => x
  | None => d
  end.

(** An object used as a dictionary with string keys.  The list is the
    object's own properties in the order [Object.keys] and [Object.entries]
    enumerate them.  The dictionaries of a schema (its type map, the field
    map of a type) are created by graphql-js with a null prototype, so a
    property read finds own properties only. *)
Definition dict (V : Type) : Type := list (string * V).

Definition keys {V : Type} (o : dict V) : list string := map fst o.

Definition entries {V : Type} (o : dict V) : list (string * V) := o.

(** [o[k]]: [None] is [undefined]. *)
Fixpoint get {V : Type} (o : dict V) (k : string) : option V :=
  match o with
  | [] => None
  | (k', v) :: o' => if String.eqb k k' then Some v else get o' k
  end.

(** What a call may do: return a value or throw.  The exceptions are the
    [SyntaxError] of the [RegExp] constructor and the [GraphQLError] of
    [buildSchema], each with its message, whose wording is the host's.
    [OutsideFragment] is not a JavaScript exception: it is how the reference
    host below declines a pattern it does not model. *)
Inductive exception : Type :=
| SyntaxError (reason : string)
| GraphQLError (reason : string)
| OutsideFragment (pattern : string).

Definition message (e : exception) : string :=
  match e with
  | SyntaxError r => r
  | GraphQLError r => r
  | OutsideFragment p => p
  end.

Inductive completion (A : Type) : Type :=
| Return (a : A)
| Throw (e : exception).

Arguments Return {A} a.
Arguments Throw {A} e.

(* ================================================================== *)
(** * The imported collaborators *)
(* ================================================================== *)

(** [RegExp_new p flags] is [new RegExp(p, flags)], which returns a regular
    expression or throws; [RegExp_test r s] is [r.test(s)] for an
    expression without the [g] and [y] flags, which has no state.
    [ASTNode] is graphql-js's syntax node and [print] its printer. *)
Class Host : Type := {
  regex : Type;
  RegExp_new : string -> string -> completion regex;
  RegExp_test : regex -> string -> bool;
  ASTNode : Type;
  print : ASTNode -> string
}.

(* ================================================================== *)
(** * The schema graph, as the handlers read it *)
(* ================================================================== *)

(** A field's type reference and its [toString()]. *)
Inductive GraphQLTypeRef : Type :=
| NamedType (name : string)
| GraphQLList (ofType : GraphQLTypeRef)
| GraphQLNonNull (ofType : GraphQLTypeRef).

Fixpoint toString (t : GraphQLTypeRef) : string :=
  match t with
  | NamedType name => name
  | GraphQLList ofType => "[" ++ toString ofType ++ "]"
  | GraphQLNonNull ofType => toString ofType ++ "!"
  end.

Section Model.

Context {H : Host}.

Record GraphQLField : Type := {
  field_type : GraphQLTypeRef;
  field_astNode : option ASTNode
}.

Definition GraphQLFieldMap : Type := dict GraphQLField.

(** The class of a named type.  Three classes have a [getFields] method. *)
Inductive TypeClass : Type :=
| GraphQLScalarType
| GraphQLObjectType (fields : GraphQLFieldMap)
| GraphQLInterfaceType (fields : GraphQLFieldMap)
| GraphQLUnionType
| GraphQLEnumType
| GraphQLInputObjectType (fields : GraphQLFieldMap).

Record GraphQLNamedType : Type := {
  description : option string;
  astNode : option ASTNode;
  class : TypeClass
}.

(** [type.constructor.name]. *)
Definition constructor_name (t : GraphQLNamedType) : string :=
  match class t with
  | GraphQLScalarType => "GraphQLScalarType"
  | GraphQLObjectType _ => "GraphQLObjectType"
  | GraphQLInterfaceType _ => "GraphQLInterfaceType"
  | GraphQLUnionType => "GraphQLUnionType"
  | GraphQLEnumType => "GraphQLEnumType"
  | GraphQLInputObjectType _ => "GraphQLInputObjectType"
  end.

(** ["getFields" in type], together with the call [type.getFields()] where
    the method exists. *)
Definition getFields (t : GraphQLNamedType) : option GraphQLFieldMap :=
  match class t with
  | GraphQLObjectType fields => Some fields
  | GraphQLInterfaceType fields => Some fields
  | GraphQLInputObjectType fields => Some fields
  | GraphQLScalarType | GraphQLUnionType | GraphQLEnumType => None
  end.

(** A root operation type, of which the script reads [getFields()] only. *)
Record RootType : Type := { root_getFields : GraphQLFieldMap }.

Record GraphQLSchema : Type := {
  getQueryType : option RootType;
  getMutationType : option RootType;
  getSubscriptionType : option RootType;
  getTypeMap : dict GraphQLNamedType
}.

(* ================================================================== *)
(** * Tool results and handlers *)
(* ================================================================== *)

Record ContentItem : Type := { type : string; text : string }.

Record CallToolResult : Type := { content : list ContentItem }.

(** [{ content: [{ type: "text", text }] }]. *)
Definition text_result (t : string) : CallToolResult :=
  {| content := [ {| type := "text"; text := t |} ] |}.

Definition no_definition : string := "Field not found or has no definition".

(** list-query-fields, list-mutation-fields, list-subscription-fields. *)
Definition list_fields (fields : GraphQLFieldMap) : completion CallToolResult :=
  Return (text_result (join ", " (keys fields))).

(** get-query-field, get-mutation-field, get-subscription-field:
    [fields[fieldName]?.astNode ? print(fields[fieldName].astNode) : "..."]. *)
Definition get_field (fields : GraphQLFieldMap) (fieldName : string)
  : completion CallToolResult :=
  Return (text_result
    match
      match get fields fieldName with
      | Some field => field_astNode field
      | None => None
      end
    with
    | Some node => print node
    | None => no_definition
    end).

Section Handlers.

Variable schema : GraphQLSchema.

(** list-types. *)
Definition list_types : completion CallToolResult :=
  Return (text_result
    (join ", "
       (filter (fun type => negb (startsWith type "__"))
               (keys (getTypeMap schema))))).

(** get-type. *)
Definition get_type (typeName : string) : completion CallToolResult :=
  let text :=
    match get (getTypeMap schema) typeName with
    | None => "Type " ++ DQUOTE ++ typeName ++ DQUOTE ++ " not found"
    | Some type =>
      match astNode type with
      | None =>
        "Type: " ++ typeName ++ LF
        ++ "Description: " ++ nullish (description type) "No description" ++ LF
        ++ "Kind: " ++ constructor_name type
      | Some node => print node
      end
    end in
  Return (text_result text).

(** get-type-fields. *)
Definition get_type_fields (typeName : string) : completion CallToolResult :=
  let text :=
    match get (getTypeMap schema) typeName with
    | None => "Type " ++ DQUOTE ++ typeName ++ DQUOTE ++ " not found"
    | Some type =>
      match getFields type with
      | None => "Type " ++ DQUOTE ++ typeName ++ DQUOTE
                ++ " is not an object type with fields"
      | Some fields =>
        join LF
          (map (fun '(fieldName, field) =>
                  fieldName ++ ": " ++ toString (field_type field))
               (entries fields))
      end
    end in
  Return (text_result text).

(** search-schema. *)
Definition search_schema (pattern : string) : completion CallToolResult :=
  let text := "" in
  match RegExp_new pattern "i" with
  | Throw e => Throw e
  | Return searchRegex =>
    let matchingTypes :=
      filter (fun type => negb (startsWith type "__") && RegExp_test searchRegex type)
             (keys (getTypeMap schema)) in
    let text :=
      text ++ "Matching types: " ++ js_or (join ", " matchingTypes) "None" in
    let matchingFields :=
      flat_map
        (fun '(typeName, type) =>
           match getFields type with
           | Some fields =>
             map (fun fieldName => typeName ++ "." ++ fieldName)
                 (filter (fun fieldName => RegExp_test searchRegex fieldName)
                         (keys fields))
           | None => []
           end)
        (filter (fun '(typeName, _) => negb (startsWith typeName "__"))
                (entries (getTypeMap schema))) in
    let text :=
      text ++ LF ++ "Matching fields: " ++ js_or (join ", " matchingFields) "None" in
    Return (text_result text)
  end.

End Handlers.

End Model.

(* ================================================================== *)
(** * The tool registry *)
(* ================================================================== *)

Section Server.

Context {H : Host}.

(** A tool's callback with its input contract: no parameter, or one
    required string parameter (the [z.string()] of the source). *)
Inductive callback : Type :=
| NoArgs (cb : completion CallToolResult)
| OneString (param : string) (cb : string -> completion CallToolResult).

Record RegisteredTool : Type := {
  tool_name : string;
  tool_description : string;
  tool_callback : callback
}.

(** The server, of which the tools matter here: they are kept in the order
    of registration, and the names the script registers are all different. *)
Record McpServer : Type := { registeredTools : list RegisteredTool }.

Definition new_McpServer : McpServer := {| registeredTools := [] |}.

(** [server.tool(name, description, [paramsSchema,] cb)]. *)
Definition server_tool (server : McpServer) (name descr : string) (cb : callback)
  : McpServer :=
  {| registeredTools :=
       registeredTools server
       ++ [ {| tool_name := name; tool_description := descr; tool_callback := cb |} ] |}.

(** [schema.getXType()?.getFields()] followed by [if (xFields) { ... }]: the
    two tools of a root operation kind. *)
Definition register_root (server : McpServer) (root : option RootType)
    (list_name list_descr get_name get_descr : string) : McpServer :=
  match option_map root_getFields root with
  | Some rootFields =>
    let server :=
      server_tool server list_name list_descr (NoArgs (list_fields rootFields)) in
    server_tool server get_name get_descr
      (OneString "fieldName" (get_field rootFields))
  | None => server
  end.

(** Lines 67 to 252 of the script, in order. *)
Definition register_tools (schema : GraphQLSchema) (server : McpServer) : McpServer :=
  let server :=
    register_root server (getQueryType schema)
      "list-query-fields"
      "Lists all of the available root-level fields for a GraphQL query."
      "get-query-field"
      "Gets a single GraphQL query field definition in GraphQL Schema Definition Language." in
  let server :=
    register_root server (getMutationType schema)
      "list-mutation-fields"
      "Lists all of the available root-level fields for a GraphQL mutation."
      "get-mutation-field"
      "Gets a single GraphQL mutation field definition in GraphQL Schema Definition Language." in
  let server :=
    register_root server (getSubscriptionType schema)
      "list-subscription-fields"
      "Lists all of the available root-level fields for a GraphQL subscription."
      "get-subscription-field"
      "Gets a single GraphQL subscription field definition in GraphQL Schema Definition Language." in
  let server :=
    server_tool server "list-types"
      "Lists all of the types defined in the GraphQL schema."
      (NoArgs (list_types schema)) in
  let server :=
    server_tool server "get-type"
      "Gets a single GraphQL type from the schema in the GraphQL Schema Definition Language"
      (OneString "typeName" (get_type schema)) in
  let server :=
    server_tool server "get-type-fields"
      "Gets a simplified list of fields for a specific GraphQL type"
      (OneString "typeName" (get_type_fields schema)) in
  server_tool server "search-schema"
    "Search for types or fields in the schema by name pattern"
    (OneString "pattern" (search_schema schema)).

Definition tool_names (server : McpServer) : list string :=
  map tool_name (registeredTools server).

(** The registry's lookup by name. *)
Definition find_tool (server : McpServer) (name : string) : option RegisteredTool :=
  find (fun t => String.eqb (tool_name t) name) (registeredTools server).

(** A tool invocation whose argument passed the input contract: [None]
    when no tool of that name is registered. *)
Definition call_tool (server : McpServer) (name arg : string)
  : option (completion CallToolResult) :=
  match find_tool server name with
  | None => None
  | Some t =>
    match tool_callback t with
    | NoArgs cb => Some cb
    | OneString _ cb => Some (cb arg)
    end
  end.

(* ================================================================== *)
(** * Start-up *)
(* ================================================================== *)

(** What the script reads from its environment: the command line after
    [process.argv.slice(2)], [path.resolve], [readFile] ([None] when the
    promise rejects) and graphql-js's [buildSchema]. *)
Record Env : Type := {
  argv : list string;
  resolve : string -> string;
  readFile : string -> option string;
  buildSchema : string -> completion GraphQLSchema
}.

(** The observable state of the process.  [console] is rebound to a
    [Console] on [process.stderr], so [console.log] and [console.error] both
    write there; [stderr] holds one entry per call. *)
Record Process : Type := {
  stderr : list string;
  reads : list string;
  server : option McpServer;
  connected : bool
}.

Definition initial : Process :=
  {| stderr := []; reads := []; server := None; connected := false |}.

(** A statement either continues with a value or ends the process. *)
Inductive step (A : Type) : Type :=
| Continue (a : A)
| Exit (code : nat).

#[global] Arguments Continue {A} a.
#[global] Arguments Exit {A} code.

Definition Proc (A : Type) : Type := Process -> step A * Process.

Definition ret {A : Type} (a : A) : Proc A := fun p => (Continue a, p).

Definition bind {A B : Type} (m : Proc A) (k : A -> Proc B) : Proc B :=
  fun p =>
    match m p with
    | (Continue a, p') => k a p'
    | (Exit code, p') => (Exit code, p')
    end.

Definition process_exit {A : Type} (code : nat) : Proc A :=
  fun p => (Exit code, p).

Definition console_write (line : string) : Proc unit :=
  fun p =>
    (Continue tt,
     {| stderr := stderr p ++ [line]; reads := reads p;
        server := server p; connected := connected p |}).

Definition console_log := console_write.
Definition console_error := console_write.

Definition fs_readFile (env : Env) (path : string) : Proc (option string) :=
  fun p =>
    (Continue (readFile env path),
     {| stderr := stderr p; reads := reads p ++ [path];
        server := server p; connected := connected p |}).

(** [new McpServer(...)]. *)
Definition create_server : Proc unit :=
  fun p =>
    (Continue tt,
     {| stderr := stderr p; reads := reads p;
        server := Some new_McpServer; connected := connected p |}).

(** The [server.tool(...)] calls, on the server created before. *)
Definition on_server (f : McpServer -> McpServer) : Proc unit :=
  fun p =>
    (Continue tt,
     {| stderr := stderr p; reads := reads p;
        server := option_map f (server p); connected := connected p |}).

Definition server_connect : Proc unit :=
  fun p =>
    (Continue tt,
     {| stderr := stderr p; reads := reads p;
        server := server p; connected := true |}).

End Server.

Declare Scope proc_scope.
Delimit Scope proc_scope with proc.
Notation "x <- c1 ;; c2" := (bind c1 (fun x => c2))
  (at level 61, c1 at next level, right associativity) : proc_scope.
Notation "c1 ;; c2" := (bind c1 (fun _ => c2))
  (at level 61, right associativity) : proc_scope.

Section Startup.

Context {H : Host}.

Local Open Scope proc_scope.

Definition usage_text : string :=
  join LF
    [ "";
      "GraphQL Schema Model Context Protocol Server";
      "";
      "Usage: ";
      "  node index.mjs [path/to/schema.graphqls]";
      "";
      "Arguments:";
      "  path/to/schema.graphqls  Path to the GraphQL schema file (optional)";
      "                           If not provided, defaults to schema.graphqls";
      "";
      "Examples:";
      "  node index.mjs # Uses default schema.graphqls";
      "  node index.mjs ../schema.shopify.2025-01.graphqls # Uses Shopify schema";
      "  node index.mjs /absolute/path/to/custom-schema.graphqls";
      "  " ].

(** The path the loader reads: [resolve(schemaArg ?? "schema.graphqls")]. *)
Definition schemaPath (env : Env) (schemaArg : option string) : string :=
  resolve env (nullish schemaArg "schema.graphqls").

Definition loadSchema (env : Env) (schemaArg : option string) : Proc GraphQLSchema :=
  let schemaPath := schemaPath env schemaArg in
  read <- fs_readFile env schemaPath ;;
  match read with
  | None =>
    console_error ("Error: Schema file not found at " ++ schemaPath) ;;
    console_error "Usage: node index.mjs [path/to/schema.graphqls]" ;;
    process_exit 1
  | Some schemaContent =>
    match buildSchema env schemaContent with
    | Return schema => ret schema
    | Throw error =>
      console_error ("Error loading schema: " ++ message error) ;;
      process_exit 1
    end
  end.

(** The script, top to bottom. *)
Definition main (env : Env) : Proc unit :=
  let args := argv env in
  (if includes args "--help" || includes args "-h"
   then console_log usage_text ;; process_exit 0
   else ret tt) ;;
  let schemaArg := nth_error args 0 in
  schema <- loadSchema env schemaArg ;;
  create_server ;;
  on_server (register_tools schema) ;;
  server_connect.

End Startup.

(* ================================================================== *)
(** * A reference host *)
(* ================================================================== *)

(** An executable [Host] for a fragment of the ECMAScript pattern language
    with the [i] flag, over strings of code units below 128 (GraphQL names
    are such strings):

      - pattern characters, [.], the assertions [^] and [$];
      - [\] before a syntax character or [/];
      - groups [( )] and [(?: )], alternation [|];
      - the quantifiers [*], [+], [?], each optionally followed by [?].

    Character classes, braces, the other escapes, the other [(?] groups and
    code units from 128 are outside the fragment: on such a pattern the
    constructor signals [OutsideFragment], which no ECMAScript engine raises,
    so nothing is said about the host there.

    [test] only asks whether some match exists, so the matcher computes, for
    a start position, the set of end positions: greedy and lazy quantifiers
    give the same answer, and so do capturing and non-capturing groups. *)
Module Reference.

Inductive re : Type :=
| Empty
| Char (c : ascii)
| Any
| Bol
| Eol
| Seq (r1 r2 : re)
| Alt (r1 r2 : re)
| Star (r : re)
| Plus (r : re)
| Opt (r : re).

(** ** Parsing *)

(** What may follow the last term of the alternative being read. *)
Inductive follow : Type :=
| Quantifier      (* an atom: any quantifier *)
| LazyMark        (* a quantified atom: only the lazy mark [?] *)
| Nothing.        (* an assertion, a lazily quantified atom, or no term *)

(** An open group: its finished alternatives and the terms of the current
    one, both most recent first. *)
Record frame : Type := {
  alternatives : list re;
  terms : list re;
  after : follow
}.

Definition empty_frame : frame :=
  {| alternatives := []; terms := []; after := Nothing |}.

Definition sequence (ts : list re) : re :=
  match rev ts with
  | [] => Empty
  | t :: ts' => fold_left Seq ts' t
  end.

Definition disjunction (f : frame) : re :=
  match rev (sequence (terms f) :: alternatives f) with
  | [] => Empty
  | a :: alts => fold_left Alt alts a
  end.

Definition push_atom (f : frame) (a : re) : frame :=
  {| alternatives := alternatives f; terms := a :: terms f; after := Quantifier |}.

Definition push_assertion (f : frame) (a : re) : frame :=
  {| alternatives := alternatives f; terms := a :: terms f; after := Nothing |}.

Definition next_alternative (f : frame) : frame :=
  {| alternatives := sequence (terms f) :: alternatives f;
     terms := [];
     after := Nothing |}.

Definition quantify (f : frame) (q : re -> re) : completion frame :=
  match after f, terms f with
  | Quantifier, t :: ts =>
    Return {| alternatives := alternatives f; terms := q t :: ts; after := LazyMark |}
  | _, _ => Throw (SyntaxError "Nothing to repeat")
  end.

Definition question_mark (f : frame) : completion frame :=
  match after f with
  | Quantifier => quantify f Opt
  | LazyMark =>
    Return {| alternatives := alternatives f; terms := terms f; after := Nothing |}
  | Nothing => Throw (SyntaxError "Nothing to repeat")
  end.

Definition is_syntax_character (c : ascii) : bool :=
  existsb (Ascii.eqb c)
    [ "^"; "$"; "\"; "."; "*"; "+"; "?"; "("; ")"; "["; "]"; "{"; "}"; "|" ]%char.

Definition in_alphabet (c : ascii) : bool := Nat.ltb (nat_of_ascii c) 128.

(** One pass over the pattern with the stack of open groups; [top] is the
    innermost one. *)
Fixpoint parse_from (src p : string) (stack : list frame) (top : frame)
  : completion re :=
  match p with
  | EmptyString =>
    match stack with
    | [] => Return (disjunction top)
    | _ :: _ => Throw (SyntaxError "Unterminated group")
    end
  | String "(" (String "?" (String ":" p')) =>
    parse_from src p' (top :: stack) empty_frame
  | String "(" (String "?" _) => Throw (OutsideFragment src)
  | String "(" p' => parse_from src p' (top :: stack) empty_frame
  | String ")" p' =>
    match stack with
    | [] => Throw (SyntaxError "Unmatched ')'")
    | outer :: stack' => parse_from src p' stack' (push_atom outer (disjunction top))
    end
  | String "|" p' => parse_from src p' stack (next_alternative top)
  | String "*" p' =>
    match quantify top Star with
    | Return top' => parse_from src p' stack top'
    | Throw e => Throw e
    end
  | String "+" p' =>
    match quantify top Plus with
    | Return top' => parse_from src p' stack top'
    | Throw e => Throw e
    end
  | String "?" p' =>
    match question_mark top with
    | Return top' => parse_from src p' stack top'
    | Throw e => Throw e
    end
  | String "." p' => parse_from src p' stack (push_atom top Any)
  | String "^" p' => parse_from src p' stack (push_assertion top Bol)
  | String "$" p' => parse_from src p' stack (push_assertion top Eol)
  | String "\" EmptyString => Throw (SyntaxError "\ at end of pattern")
  | String "\" (String c p') =>
    if is_syntax_character c || Ascii.eqb c "/"
    then parse_from src p' stack (push_atom top (Char c))
    else Throw (OutsideFragment src)
  | String c p' =>
    if is_syntax_character c || negb (in_alphabet c)
    then Throw (OutsideFragment src)
    else parse_from src p' stack (push_atom top (Char c))
  end.

Definition parse (pattern : string) : completion re :=
  parse_from pattern pattern [] empty_frame.

(** ** Matching *)

(** Canonicalize of the [i] flag on code units below 128: upper case. *)
Definition canonicalize (c : ascii) : ascii :=
  let n := nat_of_ascii c in
  if Nat.leb 97 n && Nat.leb n 122 then ascii_of_nat (n - 32) else c.

(** The line terminators below 128, which [.] does not match. *)
Definition is_line_terminator (c : ascii) : bool :=
  Ascii.eqb c "010" || Ascii.eqb c "013".

(** The positions reachable from [acc] by at most [fuel] rounds of [f]. *)
Fixpoint closure (f : nat -> list nat) (fuel : nat) (acc : list nat) : list nat :=
  match fuel with
  | O => acc
  | S fuel' => closure f fuel' (nodup Nat.eq_dec (acc ++ flat_map f acc))
  end.

Section Matcher.

Variable input : list ascii.

(** [ends r i]: the positions [j] such that [r] matches [input] from [i]
    to [j]. *)
Fixpoint ends (r : re) (i : nat) : list nat :=
  match r with
  | Empty => [i]
  | Char c =>
    match nth_error input i with
    | Some d => if Ascii.eqb (canonicalize c) (canonicalize d) then [S i] else []
    | None => []
    end
  | Any =>
    match nth_error input i with
    | Some d => if is_line_terminator d then [] else [S i]
    | None => []
    end
  | Bol => if Nat.eqb i 0 then [i] else []
  | Eol => if Nat.eqb i (List.length input) then [i] else []
  | Seq r1 r2 => flat_map (ends r2) (ends r1 i)
  | Alt r1 r2 => ends r1 i ++ ends r2 i
  | Star r' => closure (ends r') (List.length input) [i]
  | Plus r' => closure (ends r') (List.length input) (ends r' i)
  | Opt r' => i :: ends r' i
  end.

Definition matches_at (r : re) (i : nat) : bool :=
  match ends r i with
  | [] => false
  | _ :: _ => true
  end.

End Matcher.

(** [r.test(s)]: some match starts at some position of [s]. *)
Definition test (r : re) (s : string) : bool :=
  let input := list_ascii_of_string s in
  existsb (matches_at input r) (seq 0 (S (List.length input))).

Definition construct (pattern flags : string) : completion re :=
  if String.eqb flags "i" then parse pattern else Throw (OutsideFragment flags).

(** A syntax node is represented by the text the printer gives for it. *)
#[export] Instance host : Host := {|
  regex := re;
  RegExp_new := construct;
  RegExp_test := test;
  ASTNode := string;
  print := fun node => node
|}.

End Reference.

(* ================================================================== *)
(** * Vocabulary of the properties *)
(* ================================================================== *)

(** [sub] occurs in [s]. *)
Definition Contains (sub s : string) : Prop :=
  exists before after, s = before ++ sub ++ after.

(** The pieces of [s] between the occurrences of [sep]. *)
Fixpoint split_at (sep : ascii) (s : string) : list string :=
  match s with
  | EmptyString => [ "" ]
  | String c s' =>
    if Ascii.eqb c sep then "" :: split_at sep s'
    else
      match split_at sep s' with
      | [] => [ String c "" ]
      | piece :: pieces => String c piece :: pieces
      end
  end.

(** The lines of a text: the empty text has none, any other text has one
    more line than it has line feeds. *)
Definition lines (t : string) : list string :=
  match t with
  | EmptyString => []
  | String _ _ => split_at LF_char t
  end.

Fixpoint all_chars (P : ascii -> bool) (s : string) : bool :=
  match s with
  | EmptyString => true
  | String c s' => P c && all_chars P s'
  end.

Definition not_LF (c : ascii) : bool := negb (Ascii.eqb c LF_char).

Definition no_LF (s : string) : bool := all_chars not_LF s.

(** GraphQL's [Name]: a letter or underscore, then letters, digits and
    underscores. *)
Definition is_letter (c : ascii) : bool :=
  let n := nat_of_ascii c in
  (Nat.leb 65 n && Nat.leb n 90) || (Nat.leb 97 n && Nat.leb n 122).

Definition is_digit (c : ascii) : bool :=
  let n := nat_of_ascii c in Nat.leb 48 n && Nat.leb n 57.

Definition name_start (c : ascii) : bool := is_letter c || Ascii.eqb c "_".

Definition name_continue (c : ascii) : bool := name_start c || is_digit c.

Definition is_Name (s : string) : bool :=
  match s with
  | EmptyString => false
  | String c s' => name_start c && all_chars name_continue s'
  end.


(** The three root operation kinds and the names of their tools. *)
Inductive operation : Type := Query | Mutation | Subscription.

Definition list_tool (op : operation) : string :=
  match op with
  | Query => "list-query-fields"
  | Mutation => "list-mutation-fields"
  | Subscription => "list-subscription-fields"
  end.

Definition get_tool (op : operation) : string :=
  match op with
  | Query => "get-query-field"
  | Mutation => "get-mutation-field"
  | Subscription => "get-subscription-field"
  end.

Section Vocabulary.

Context {H : Host}.


Definition root_type (schema : GraphQLSchema) (op : operation) : option RootType :=
  match op with
  | Query => getQueryType schema
  | Mutation => getMutationType schema
  | Subscription => getSubscriptionType schema
  end.

(** The server once the script has registered its tools. *)
Definition registry (schema : GraphQLSchema) : McpServer :=
  register_tools schema new_McpServer.

Definition type_names (schema : GraphQLSchema) : list string :=
  keys (getTypeMap schema).

(** The field names of a type; none for a type that bears no fields. *)
Definition field_names (t : GraphQLNamedType) : list string :=
  match getFields t with
  | Some fields => keys fields
  | None => []
  end.

(** Every field name of every type of the schema. *)
Definition all_field_names (schema : GraphQLSchema) : list string :=
  flat_map (fun entry => field_names (snd entry)) (getTypeMap schema).

Definition is_internal (name : string) : bool := startsWith name "__".

(** The names of the types that are not introspection types, in the order
    of the type map. *)
Definition public_type_names (schema : GraphQLSchema) : list string :=
  filter (fun name => negb (is_internal name)) (type_names schema).


(** A line of a get-type-fields answer. *)
Definition field_line (entry : string * GraphQLField) : string :=
  fst entry ++ ": " ++ toString (field_type (snd entry)).

(** The text search-schema gives when nothing matches. *)
Definition nothing_found : string :=
  "Matching types: None" ++ LF ++ "Matching fields: None".

(** The three lines get-type synthesizes for a type without syntax node. *)
Definition summary (typeName : string) (t : GraphQLNamedType) : list string :=
  [ "Type: " ++ typeName;
    "Description: " ++ nullish (description t) "No description";
    "Kind: " ++ constructor_name t ].

End Vocabulary.

(* ================================================================== *)
(** * A sample schema on the reference host *)
(* ================================================================== *)

Module Sample.

Import Reference.

Definition ID_ref : GraphQLTypeRef := GraphQLNonNull (NamedType "ID").

Definition user_field : GraphQLField :=
  {| field_type := NamedType "User";
     field_astNode := Some "user(id: ID!): User" |}.

Definition Query_fields : GraphQLFieldMap := [ ("user", user_field) ].

Definition User_fields : GraphQLFieldMap :=
  [ ("id", {| field_type := ID_ref; field_astNode := Some "id: ID!" |});
    ("name", {| field_type := NamedType "String"; field_astNode := Some "name: String" |});
    ("friends",
     {| field_type := GraphQLNonNull (GraphQLList (GraphQLNonNull (NamedType "User")));
        field_astNode := Some "friends: [User!]!" |}) ].

Definition Query_type : GraphQLNamedType :=
  {| description := None;
     astNode := Some (join LF [ "type Query {"; "  user(id: ID!): User"; "}" ]);
     class := GraphQLObjectType Query_fields |}.

Definition User_type : GraphQLNamedType :=
  {| description := None;
     astNode :=
       Some (join LF [ "type User {"; "  id: ID!"; "  name: String";
                       "  friends: [User!]!"; "}" ]);
     class := GraphQLObjectType User_fields |}.

(** The built-in types carry a description and no syntax node. *)
Definition builtin (descr : string) (c : TypeClass) : GraphQLNamedType :=
  {| description := Some descr; astNode := None; class := c |}.

Definition builtin_field (t : GraphQLTypeRef) : GraphQLField :=
  {| field_type := t; field_astNode := None |}.

Definition required (name : string) : GraphQLTypeRef := GraphQLNonNull (NamedType name).

Definition list_of (name : string) : GraphQLTypeRef :=
  GraphQLList (GraphQLNonNull (NamedType name)).

(** The description graphql-js gives [__Type] has two paragraphs (abridged
    here), separated by an empty line. *)
Definition Type_description : string :=
  "The fundamental unit of any GraphQL Schema is the type."
  ++ LF ++ LF
  ++ "Depending on the kind of a type, certain fields describe information about that type.".

Definition Schema_fields : GraphQLFieldMap :=
  [ ("description", builtin_field (NamedType "String"));
    ("types", builtin_field (GraphQLNonNull (list_of "__Type")));
    ("queryType", builtin_field (required "__Type"));
    ("mutationType", builtin_field (NamedType "__Type"));
    ("subscriptionType", builtin_field (NamedType "__Type"));
    ("directives", builtin_field (GraphQLNonNull (list_of "__Directive"))) ].

Definition Type_fields : GraphQLFieldMap :=
  [ ("kind", builtin_field (required "__TypeKind"));
    ("name", builtin_field (NamedType "String"));
    ("description", builtin_field (NamedType "String"));
    ("specifiedByURL", builtin_field (NamedType "String"));
    ("fields", builtin_field (list_of "__Field"));
    ("interfaces", builtin_field (list_of "__Type"));
    ("possibleTypes", builtin_field (list_of "__Type"));
    ("enumValues", builtin_field (list_of "__EnumValue"));
    ("inputFields", builtin_field (list_of "__InputValue"));
    ("ofType", builtin_field (NamedType "__Type")) ].

Definition Field_fields : GraphQLFieldMap :=
  [ ("name", builtin_field (required "String"));
    ("description", builtin_field (NamedType "String"));
    ("args", builtin_field (GraphQLNonNull (list_of "__InputValue")));
    ("type", builtin_field (required "__Type"));
    ("isDeprecated", builtin_field (required "Boolean"));
    ("deprecationReason", builtin_field (NamedType "String")) ].

Definition InputValue_fields : GraphQLFieldMap :=
  [ ("name", builtin_field (required "String"));
    ("description", builtin_field (NamedType "String"));
    ("type", builtin_field (required "__Type"));
    ("defaultValue", builtin_field (NamedType "String"));
    ("isDeprecated", builtin_field (required "Boolean"));
    ("deprecationReason", builtin_field (NamedType "String")) ].

Definition EnumValue_fields : GraphQLFieldMap :=
  [ ("name", builtin_field (required "String"));
    ("description", builtin_field (NamedType "String"));
    ("isDeprecated", builtin_field (required "Boolean"));
    ("deprecationReason", builtin_field (NamedType "String")) ].

Definition Directive_fields : GraphQLFieldMap :=
  [ ("name", builtin_field (required "String"));
    ("description", builtin_field (NamedType "String"));
    ("isRepeatable", builtin_field (required "Boolean"));
    ("locations", builtin_field (GraphQLNonNull (list_of "__DirectiveLocation")));
    ("args", builtin_field (GraphQLNonNull (list_of "__InputValue"))) ].

(** The type map, modelled on the one graphql-js builds for the document
    [type Query { user(id: ID!): User }
     type User { id: ID! name: String friends: [User!]! }]:
    the types of the document and the scalars they mention, then the
    introspection types. *)
Definition typeMap : dict GraphQLNamedType :=
  [ ("Query", Query_type);
    ("ID", builtin "The ID scalar type represents a unique identifier." GraphQLScalarType);
    ("User", User_type);
    ("String", builtin "The String scalar type represents textual data." GraphQLScalarType);
    ("Boolean", builtin "The Boolean scalar type represents true or false." GraphQLScalarType);
    ("__Schema",
     builtin "A GraphQL Schema defines the capabilities of a GraphQL server."
             (GraphQLObjectType Schema_fields));
    ("__Type", builtin Type_description (GraphQLObjectType Type_fields));
    ("__TypeKind",
     builtin "An enum describing what kind of type a given __Type is." GraphQLEnumType);
    ("__Field",
     builtin "Object and Interface types are described by a list of Fields."
             (GraphQLObjectType Field_fields));
    ("__InputValue",
     builtin "Arguments provided to Fields or Directives are represented as Input Values."
             (GraphQLObjectType InputValue_fields));
    ("__EnumValue",
     builtin "One possible value for a given Enum." (GraphQLObjectType EnumValue_fields));
    ("__Directive",
     builtin "A Directive provides a way to describe alternate runtime execution."
             (GraphQLObjectType Directive_fields));
    ("__DirectiveLocation",
     builtin "A Directive can be adjacent to many parts of the GraphQL language."
             GraphQLEnumType) ].

(** A schema with a query root and neither mutations nor subscriptions. *)
Definition schema : GraphQLSchema :=
  {| getQueryType := Some {| root_getFields := Query_fields |};
     getMutationType := None;
     getSubscriptionType := None;
     getTypeMap := typeMap |}.


End Sample.

(* ================================================================== *)
(** * The server's name *)
(* ================================================================== *)

(** The rest of [s] after its first [n] characters. *)
Fixpoint drop (n : nat) (s : string) : string :=
  match n, s with
  | O, _ => s
  | S _, EmptyString => EmptyString
  | S n', String _ s' => drop n' s'
  end.

(** [s.replace(pattern, replacement)] for a string pattern and a
    replacement without [$]: the first occurrence of the pattern is
    replaced, and a string without occurrence is returned as it is. *)
Fixpoint replace (s pattern replacement : string) : string :=
  if String.prefix pattern s
  then replacement ++ drop (String.length pattern) s
  else
    match s with
    | EmptyString => EmptyString
    | String c s' => String c (replace s' pattern replacement)
    end.

(** [s.split(separator)] for a separator of one character. *)
Definition split (s : string) (separator : ascii) : list string :=
  split_at separator s.

(** [pieces.pop()] on the result of [split], which has at least one piece:
    its last piece. *)
Definition pop (pieces : list string) : string := List.last pieces "".

(** Line 59:
    [schemaArg ? schemaArg.split("/").pop().replace(".graphqls", "") : "schema"].
    The empty string is falsy, as [undefined] is. *)
Definition schemaName (schemaArg : option string) : string :=
  match schemaArg with
  | None => "schema"
  | Some arg =>
    if String.eqb arg "" then "schema"
    else replace (pop (split arg "/")) ".graphqls" ""
  end.

(** The options of [new McpServer({ name, version, description })]. *)
Record ServerInfo : Type := {
  server_name : string;
  server_version : string;
  server_description : string
}.

Definition server_info (schemaArg : option string) : ServerInfo :=
  let schemaName := schemaName schemaArg in
  {| server_name := "GraphQL Schema: " ++ schemaName;
     server_version := "1.0.0";
     server_description := "Provides GraphQL schema information for " ++ schemaName |}.

(* ================================================================== *)
(** * Further vocabulary *)
(* ================================================================== *)

(** [c] does not occur in [s]. *)
Definition no_char (c : ascii) (s : string) : bool :=
  all_chars (fun d => negb (Ascii.eqb d c)) s.

Definition prepend (c : ascii) (pieces : list string) : list string :=
  match pieces with
  | [] => [ String c "" ]
  | piece :: rest => String c piece :: rest
  end.

(** The pieces of [s] between the occurrences of a comma and a space. *)
Fixpoint split_listing (s : string) : list string :=
  match s with
  | EmptyString => [ "" ]
  | String c s' =>
    if Ascii.eqb c ","
    then
      match s' with
      | String d s'' =>
        if Ascii.eqb d " " then "" :: split_listing s''
        else prepend c (split_listing s')
      | EmptyString => prepend c (split_listing s')
      end
    else prepend c (split_listing s')
  end.

(** The items of a listing: the empty listing has none. *)
Definition items (listing : string) : list string :=
  match listing with
  | EmptyString => []
  | String _ _ => split_listing listing
  end.

(** The tools the script registers whatever the schema. *)
Definition schema_tools : list string :=
  [ "list-types"; "get-type"; "get-type-fields"; "search-schema" ].

Section FurtherVocabulary.

Context {H : Host}.

(** The command line asks for the usage text. *)
Definition help_requested (env : Env) : bool :=
  includes (argv env) "--help" || includes (argv env) "-h".

(** The tools of the root operation types a schema has, in the order of
    registration. *)
Definition root_tools (schema : GraphQLSchema) : list string :=
  flat_map
    (fun op =>
       match root_type schema op with
       | Some _ => [ list_tool op; get_tool op ]
       | None => []
       end)
    [ Query; Mutation; Subscription ].

End FurtherVocabulary.

(* ================================================================== *)
(** * Sample runs of the script *)
(* ================================================================== *)

Module Runs.

Import Reference.

Definition document : string :=
  "type Query { user(id: ID!): User } type User { id: ID! name: String friends: [User!]! }".

(** A file system with one schema file, which parses. *)
Definition serving : Env :=
  {| argv := [ "api/v1.graphqls" ];
     resolve := fun path => "/srv/" ++ path;
     readFile := fun path =>
       if String.eqb path "/srv/api/v1.graphqls" then Some document else None;
     buildSchema := fun _ => Return Sample.schema |}.

(** The same, with a parser that rejects the file. *)
Definition unparsable : Env :=
  {| argv := [ "api/v1.graphqls" ];
     resolve := fun path => "/srv/" ++ path;
     readFile := fun path =>
       if String.eqb path "/srv/api/v1.graphqls" then Some "type {" else None;
     buildSchema := fun _ => Throw (GraphQLError "Syntax Error: Expected Name, found {.") |}.

(** A command line that names a missing file and asks for help. *)
Definition asking_help : Env :=
  {| argv := [ "missing.graphqls"; "--help" ];
     resolve := fun path => "/srv/" ++ path;
     readFile := fun _ => None;
     buildSchema := fun _ => Return Sample.schema |}.

(** A schema with an empty mutation root and a union. *)
Definition with_mutation : GraphQLSchema :=
  {| getQueryType := Some {| root_getFields := Sample.Query_fields |};
     getMutationType := Some {| root_getFields := [] |};
     getSubscriptionType := None;
     getTypeMap :=
       List.app Sample.typeMap
          [ ("Mutation",
             {| description := None; astNode := Some "type Mutation";
                class := GraphQLObjectType [] |});
            ("Node",
             {| description := None; astNode := Some "union Node = User";
                class := GraphQLUnionType |}) ] |}.

End Runs.

(* ================================================================== *)
(** * Properties *)
(* ================================================================== *)

(** ** Strings, lists and dictionaries *)

Lemma string_app_assoc (a b c : string) : (a ++ b) ++ c = a ++ b ++ c.
Proof.
  induction a as [|x a IH]; simpl.
  - reflexivity.
  - now rewrite IH.
Qed.


Lemma get_absent {V : Type} (o : dict V) (k : string) :
  ~ In k (keys o) -> get o k = None.
Proof.
  induction o as [|[k' v] o IH]; simpl; intros Hk.
  - reflexivity.
  - destruct (String.eqb_spec k k') as [->|Hne].
    + exfalso. apply Hk. now left.
    + apply IH. intros Hin. apply Hk. now right.
Qed.

Lemma filter_nothing {A : Type} (f : A -> bool) (l : list A) :
  Forall (fun x => f x = false) l -> filter f l = [].
Proof.
  induction 1 as [|x l Hx _ IH]; simpl.
  - reflexivity.
  - now rewrite Hx.
Qed.

Lemma flat_map_nothing {A B : Type} (f : A -> list B) (l : list A) :
  Forall (fun x => f x = []) l -> flat_map f l = [].
Proof.
  induction 1 as [|x l Hx _ IH]; simpl.
  - reflexivity.
  - now rewrite Hx, IH.
Qed.

Lemma flat_map_filter {A B : Type} (keep : A -> bool) (f : A -> list B) (l : list A) :
  flat_map f (filter keep l) = flat_map (fun x => if keep x then f x else []) l.
Proof.
  induction l as [|x l IH]; simpl.
  - reflexivity.
  - destruct (keep x); simpl; now rewrite IH.
Qed.

(** ** Lines *)

Lemma all_chars_app (P : ascii -> bool) (a b : string) :
  all_chars P (a ++ b) = all_chars P a && all_chars P b.
Proof.
  induction a as [|c a IH]; simpl.
  - reflexivity.
  - now rewrite IH, andb_assoc.
Qed.

Lemma all_chars_weaken (P Q : ascii -> bool) (s : string) :
  (forall c, P c = true -> Q c = true) -> all_chars P s = true -> all_chars Q s = true.
Proof.
  intros HPQ. induction s as [|c s IH]; simpl.
  - reflexivity.
  - intros [Hc Hs]%andb_prop. now rewrite (HPQ c Hc), IH.
Qed.

Lemma split_at_line (a b : string) :
  no_LF a = true ->
  split_at LF_char (a ++ String LF_char b) = a :: split_at LF_char b.
Proof.
  induction a as [|c a IH]; simpl; intros Ha.
  - reflexivity.
  - apply andb_prop in Ha as [Hc Ha].
    unfold not_LF in Hc. apply negb_true_iff in Hc. rewrite Hc.
    now rewrite (IH Ha).
Qed.

Lemma split_at_last (a : string) :
  no_LF a = true -> split_at LF_char a = [ a ].
Proof.
  induction a as [|c a IH]; simpl; intros Ha.
  - reflexivity.
  - apply andb_prop in Ha as [Hc Ha].
    unfold not_LF in Hc. apply negb_true_iff in Hc. rewrite Hc.
    now rewrite (IH Ha).
Qed.

Lemma split_at_join (x : string) (l : list string) :
  Forall (fun s => no_LF s = true) (x :: l) ->
  split_at LF_char (join LF (x :: l)) = x :: l.
Proof.
  revert x. induction l as [|y l IH]; intros x Hall.
  - simpl. apply split_at_last. now inversion Hall.
  - inversion Hall as [|? ? Hx Hrest]; subst.
    change (join LF (x :: y :: l)) with (x ++ String LF_char (join LF (y :: l))).
    rewrite split_at_line by exact Hx. now rewrite (IH y Hrest).
Qed.

(** A text joined from line-feed-free, non-empty pieces has exactly those
    pieces as its lines. *)
Lemma lines_join (l : list string) :
  Forall (fun s => no_LF s = true) l ->
  Forall (fun s => s <> "") l ->
  lines (join LF l) = l.
Proof.
  destruct l as [|x l]; intros Hall Hne.
  - reflexivity.
  - inversion Hne as [|? ? Hx _]; subst.
    destruct x as [|c x]; [congruence|].
    transitivity (split_at LF_char (join LF (String c x :: l))).
    + destruct l; reflexivity.
    + now apply split_at_join.
Qed.




Section Properties.

Context {H : Host}.

(** ** The registry dispatches to the handlers *)

Lemma registry_dispatch (schema : GraphQLSchema) (arg : string) :
  call_tool (registry schema) "list-types" arg = Some (list_types schema) /\
  call_tool (registry schema) "get-type" arg = Some (get_type schema arg) /\
  call_tool (registry schema) "get-type-fields" arg = Some (get_type_fields schema arg) /\
  call_tool (registry schema) "search-schema" arg = Some (search_schema schema arg).
Proof.
  unfold registry, register_tools, register_root, call_tool, find_tool.
  destruct (getQueryType schema), (getMutationType schema), (getSubscriptionType schema);
    repeat split; reflexivity.
Qed.

Lemma registry_dispatch_root (schema : GraphQLSchema) (op : operation) (arg : string) :
  call_tool (registry schema) (list_tool op) arg
  = option_map (fun root => list_fields (root_getFields root)) (root_type schema op) /\
  call_tool (registry schema) (get_tool op) arg
  = option_map (fun root => get_field (root_getFields root) arg) (root_type schema op).
Proof.
  unfold registry, register_tools, register_root, call_tool, find_tool.
  destruct op; simpl;
    destruct (getQueryType schema), (getMutationType schema), (getSubscriptionType schema);
    split; reflexivity.
Qed.

(** ** search-schema *)

(** The handler's answer once the pattern has compiled, with the two
    filters of the source written over the vocabulary above. *)
Lemma search_schema_text (schema : GraphQLSchema) (pattern : string) (r : regex) :
  RegExp_new pattern "i" = Return r ->
  search_schema schema pattern
  = Return (text_result
      ("Matching types: "
       ++ js_or (join ", "
                   (filter (fun name => negb (is_internal name) && RegExp_test r name)
                           (type_names schema)))
                "None"
       ++ LF ++ "Matching fields: "
       ++ js_or (join ", "
                   (flat_map
                      (fun entry =>
                         if is_internal (fst entry) then []
                         else map (fun fieldName => fst entry ++ "." ++ fieldName)
                                  (filter (RegExp_test r) (field_names (snd entry))))
                      (getTypeMap schema)))
                "None")).
Proof.
  intros Hnew. unfold search_schema. rewrite Hnew.
  unfold entries. rewrite flat_map_filter.
  rewrite (flat_map_ext
             (fun x : string * GraphQLNamedType =>
                if (let '(typeName, _) := x in negb (startsWith typeName "__"))
                then
                  (let '(typeName, type) := x in
                   match getFields type with
                   | Some fields =>
                     map (fun fieldName => typeName ++ "." ++ fieldName)
                         (filter (fun fieldName => RegExp_test r fieldName) (keys fields))
                   | None => []
                   end)
                else [])
             (fun entry =>
                if is_internal (fst entry) then []
                else map (fun fieldName => fst entry ++ "." ++ fieldName)
                         (filter (RegExp_test r) (field_names (snd entry))))).
  - reflexivity.
  - intros [typeName t]. unfold is_internal, field_names. simpl.
    destruct (startsWith typeName "__"); simpl; [reflexivity|].
    destruct (getFields t); reflexivity.
Qed.


Lemma in_public_type_names (schema : GraphQLSchema) (name : string) :
  In name (public_type_names schema) <->
  In name (type_names schema) /\ startsWith name "__" = false.
Proof.
  unfold public_type_names. rewrite filter_In. unfold is_internal.
  now rewrite negb_true_iff.
Qed.

(** C1 (as amended): when the pattern compiles and the resulting expression
    tests false on every type name and on every field name of the schema,
    search-schema answers "Matching types: None" and "Matching fields: None",
    and these are the two lines of its text. *)
Theorem search_schema_no_match (schema : GraphQLSchema) (pattern : string) (r : regex) :
  RegExp_new pattern "i" = Return r ->
  Forall (fun name => RegExp_test r name = false)
         (type_names schema ++ all_field_names schema) ->
  search_schema schema pattern = Return (text_result nothing_found) /\
  lines nothing_found = [ "Matching types: None"; "Matching fields: None" ].
Proof.
  intros Hnew Hnone. split; [|reflexivity].
  apply Forall_app in Hnone as [Htypes Hfields].
  rewrite (search_schema_text schema pattern Hnew).
  rewrite filter_nothing.
  - rewrite flat_map_nothing; [reflexivity|].
    unfold all_field_names in Hfields.
    induction (getTypeMap schema) as [|[typeName t] o IH]; constructor.
    + simpl in *. apply Forall_app in Hfields as [Hhere _].
      destruct (is_internal typeName); [reflexivity|].
      now rewrite filter_nothing.
    + apply IH. simpl in Hfields. now apply Forall_app in Hfields as [_ Hrest].
  - revert Htypes. apply Forall_impl. intros name ->. apply andb_false_r.
Qed.


(** C10: whatever the constructor of regular expressions throws on a
    pattern (a SyntaxError on an invalid one) comes out of the search-schema
    handler, which therefore returns no text payload for that pattern, also
    when invoked through the registry; get-type and get-type-fields return
    a text payload on the same string. *)
Theorem search_schema_throws (schema : GraphQLSchema) (pattern : string) (e : exception) :
  RegExp_new pattern "i" = Throw e ->
  search_schema schema pattern = Throw e /\
  call_tool (registry schema) "search-schema" pattern = Some (Throw e) /\
  (forall t, search_schema schema pattern <> Return (text_result t)) /\
  (exists t, get_type schema pattern = Return (text_result t)) /\
  (exists t, get_type_fields schema pattern = Return (text_result t)).
Proof.
  intros Hnew.
  assert (Hthrow : search_schema schema pattern = Throw e).
  { unfold search_schema. now rewrite Hnew. }
  split; [exact Hthrow|]. split; [|split; [|split]].
  - destruct (registry_dispatch schema pattern) as (_ & _ & _ & ->).
    now rewrite Hthrow.
  - intros t Hreturn. rewrite Hthrow in Hreturn. discriminate.
  - unfold get_type. eexists. reflexivity.
  - unfold get_type_fields. eexists. reflexivity.
Qed.

(** ** list-types *)

(** C7: list-types answers the names joined by ", " of exactly the types of
    the type map whose name does not start with "__", in the order of the
    type map; none of the names it joins starts with "__". *)
Theorem list_types_public (schema : GraphQLSchema) :
  exists names,
    list_types schema = Return (text_result (join ", " names)) /\
    names = public_type_names schema /\
    (forall name,
       In name names <-> In name (type_names schema) /\ startsWith name "__" = false) /\
    Forall (fun name => startsWith name "__" = false) names.
Proof.
  exists (public_type_names schema).
  split; [reflexivity|]. split; [reflexivity|]. split.
  - apply in_public_type_names.
  - apply Forall_forall. intros name Hin.
    now apply in_public_type_names in Hin.
Qed.

(** ** get-type and get-type-fields *)

(** C3: for a name that no type of the schema bears, get-type and
    get-type-fields both return, as a text payload, a message in which
    "not found" and the queried name occur. *)
Theorem unknown_type_not_found (schema : GraphQLSchema) (typeName : string) :
  ~ In typeName (type_names schema) ->
  exists t,
    get_type schema typeName = Return (text_result t) /\
    get_type_fields schema typeName = Return (text_result t) /\
    Contains "not found" t /\ Contains typeName t.
Proof.
  intros Habsent. apply get_absent in Habsent.
  exists ("Type " ++ DQUOTE ++ typeName ++ DQUOTE ++ " not found").
  unfold get_type, get_type_fields. rewrite Habsent.
  split; [reflexivity|]. split; [reflexivity|]. split.
  - exists ("Type " ++ DQUOTE ++ typeName ++ DQUOTE ++ " "), "".
    now rewrite !string_app_assoc.
  - exists ("Type " ++ DQUOTE), (DQUOTE ++ " not found").
    now rewrite !string_app_assoc.
Qed.



(** C8 (as amended): for a type of the schema, get-type returns the printed
    definition when the type has a syntax node; otherwise it returns
    "Type: " with the name, "Description: " with the description or
    "No description", and "Kind: " with the name of the type's class, joined
    by line feeds, and these are the three lines of the text whenever the
    name and the description contain no line feed. *)
Theorem get_type_present (schema : GraphQLSchema) (typeName : string) (t : GraphQLNamedType) :
  get (getTypeMap schema) typeName = Some t ->
  (forall node, astNode t = Some node ->
     get_type schema typeName = Return (text_result (print node))) /\
  (astNode t = None ->
     get_type schema typeName = Return (text_result (join LF (summary typeName t))) /\
     (no_LF typeName = true ->
      no_LF (nullish (description t) "No description") = true ->
      lines (join LF (summary typeName t)) = summary typeName t)).
Proof.
  intros Hget. split.
  - intros node Hnode. unfold get_type. now rewrite Hget, Hnode.
  - intros Hnode. split.
    + unfold get_type. rewrite Hget, Hnode. reflexivity.
    + intros Hname Hdescr. apply lines_join.
      * unfold summary, no_LF in *. repeat constructor; rewrite all_chars_app.
        -- now rewrite Hname.
        -- now rewrite Hdescr.
        -- unfold constructor_name. now destruct (class t).
      * unfold summary. repeat constructor; discriminate.
Qed.

(** ** The tools of the root operation types *)

(** C5: where a root operation type is present, its get-field tool returns
    the printed definition of the field when the field is in the root's
    field map and has a syntax node, and the text "Field not found or has
    no definition" when the field is absent or has no syntax node; one of
    the two cases always applies, and both are returned text payloads. *)
Theorem get_root_field (schema : GraphQLSchema) (op : operation) (root : RootType)
    (fieldName : string) :
  root_type schema op = Some root ->
  let fields := root_getFields root in
  let answer := call_tool (registry schema) (get_tool op) fieldName in
  (forall field node,
     get fields fieldName = Some field -> field_astNode field = Some node ->
     answer = Some (Return (text_result (print node)))) /\
  (get fields fieldName = None \/
   (exists field, get fields fieldName = Some field /\ field_astNode field = None) ->
   answer = Some (Return (text_result "Field not found or has no definition"))) /\
  ((exists field node, get fields fieldName = Some field /\ field_astNode field = Some node) \/
   get fields fieldName = None \/
   (exists field, get fields fieldName = Some field /\ field_astNode field = None)).
Proof.
  intros Hroot fields answer.
  assert (Hanswer : answer = Some (get_field fields fieldName)).
  { unfold answer. destruct (registry_dispatch_root schema op fieldName) as [_ ->].
    now rewrite Hroot. }
  rewrite Hanswer. unfold get_field. repeat split.
  - intros field node Hfield Hnode. now rewrite Hfield, Hnode.
  - intros [Habsent | (field & Hfield & Hnode)].
    + now rewrite Habsent.
    + now rewrite Hfield, Hnode.
  - destruct (get fields fieldName) as [field|] eqn:Hfield.
    + destruct (field_astNode field) as [node|] eqn:Hnode.
      * left. now exists field, node.
      * right. right. now exists field.
    + right. now left.
Qed.

(** C6: the list tool and the get tool of a root operation kind are among
    the registered tools exactly when the schema has that root operation
    type.  Without the root type an invocation of either finds no tool;
    with a root type that has no field both tools are registered and the
    list tool answers the empty text. *)
Theorem root_tools_registered_iff (schema : GraphQLSchema) (op : operation) :
  (In (list_tool op) (tool_names (registry schema)) <-> root_type schema op <> None) /\
  (In (get_tool op) (tool_names (registry schema)) <-> root_type schema op <> None) /\
  (root_type schema op = None ->
   forall arg,
     call_tool (registry schema) (list_tool op) arg = None /\
     call_tool (registry schema) (get_tool op) arg = None) /\
  (root_type schema op = Some {| root_getFields := [] |} ->
   In (list_tool op) (tool_names (registry schema)) /\
   In (get_tool op) (tool_names (registry schema)) /\
   forall arg,
     call_tool (registry schema) (list_tool op) arg = Some (Return (text_result ""))).
Proof.
  assert (Hlist :
    In (list_tool op) (tool_names (registry schema)) <-> root_type schema op <> None).
  { unfold registry, register_tools, register_root, tool_names.
    destruct op; simpl;
      destruct (getQueryType schema), (getMutationType schema), (getSubscriptionType schema);
      simpl; split; intros Hin; try discriminate; try congruence;
      try (repeat (destruct Hin as [Hin|Hin]; [discriminate Hin|]); contradiction);
      auto 10. }
  assert (Hget :
    In (get_tool op) (tool_names (registry schema)) <-> root_type schema op <> None).
  { unfold registry, register_tools, register_root, tool_names.
    destruct op; simpl;
      destruct (getQueryType schema), (getMutationType schema), (getSubscriptionType schema);
      simpl; split; intros Hin; try discriminate; try congruence;
      try (repeat (destruct Hin as [Hin|Hin]; [discriminate Hin|]); contradiction);
      auto 10. }
  split; [exact Hlist|]. split; [exact Hget|]. split.
  - intros Hroot arg.
    destruct (registry_dispatch_root schema op arg) as [-> ->].
    now rewrite Hroot.
  - intros Hroot. split; [|split].
    + apply Hlist. now rewrite Hroot.
    + apply Hget. now rewrite Hroot.
    + intros arg. destruct (registry_dispatch_root schema op arg) as [-> _].
      now rewrite Hroot.
Qed.

(** ** Start-up *)

(** The loader reads the resolved path once, whatever follows. *)
Lemma loadSchema_run (env : Env) (schemaArg : option string) (p : Process) :
  let path := schemaPath env schemaArg in
  let after_read errors :=
    {| stderr := stderr p ++ errors; reads := reads p ++ [ path ];
       server := server p; connected := connected p |} in
  loadSchema env schemaArg p
  = match readFile env path with
    | None =>
      (Exit 1,
       after_read [ "Error: Schema file not found at " ++ path;
                    "Usage: node index.mjs [path/to/schema.graphqls]" ])
    | Some schemaContent =>
      match buildSchema env schemaContent with
      | Return schema => (Continue schema, after_read [])
      | Throw error => (Exit 1, after_read [ "Error loading schema: " ++ message error ])
      end
    end.
Proof.
  unfold loadSchema, bind, fs_readFile, console_error, console_write, process_exit, ret.
  cbv zeta.
  destruct (readFile env (schemaPath env schemaArg)) as [schemaContent|].
  - destruct (buildSchema env schemaContent); cbn [stderr reads server connected].
    + now rewrite app_nil_r.
    + reflexivity.
  - cbn [stderr reads server connected]. now rewrite <- app_assoc.
Qed.

Lemma main_run (env : Env) (p : Process) :
  main env p
  = if includes (argv env) "--help" || includes (argv env) "-h"
    then
      (Exit 0,
       {| stderr := stderr p ++ [ usage_text ]; reads := reads p;
          server := server p; connected := connected p |})
    else
      match loadSchema env (nth_error (argv env) 0) p with
      | (Continue schema, p') =>
        (Continue tt,
         {| stderr := stderr p'; reads := reads p';
            server := Some (registry schema); connected := true |})
      | (Exit code, p') => (Exit code, p')
      end.
Proof.
  unfold main, bind.
  destruct (includes (argv env) "--help" || includes (argv env) "-h").
  - reflexivity.
  - unfold ret. destruct (loadSchema env (nth_error (argv env) 0) p) as [[schema|code] p'];
      reflexivity.
Qed.


(** ** Pieces of strings *)

Lemma split_at_nonempty (sep : ascii) (s : string) : split_at sep s <> [].
Proof.
  destruct s as [|c s]; simpl.
  - discriminate.
  - destruct (Ascii.eqb c sep); [discriminate|].
    destruct (split_at sep s); discriminate.
Qed.

Lemma split_at_pieces (sep : ascii) (s : string) :
  Forall (fun piece => no_char sep piece = true) (split_at sep s).
Proof.
  induction s as [|c s IH]; simpl.
  - repeat constructor.
  - destruct (Ascii.eqb c sep) eqn:Hc.
    + constructor; [reflexivity | exact IH].
    + destruct (split_at sep s) as [|piece pieces].
      * repeat constructor. unfold no_char. simpl. now rewrite Hc.
      * inversion IH as [|? ? Hpiece Hpieces]; subst.
        constructor; [|exact Hpieces].
        unfold no_char in *. simpl. now rewrite Hc, Hpiece.
Qed.

Lemma split_at_whole (sep : ascii) (s : string) :
  no_char sep s = true -> split_at sep s = [ s ].
Proof.
  induction s as [|c s IH]; simpl; intros Hs.
  - reflexivity.
  - unfold no_char in Hs. simpl in Hs. apply andb_prop in Hs as [Hc Hs].
    apply negb_true_iff in Hc. rewrite Hc. now rewrite (IH Hs).
Qed.

Lemma split_at_last_piece (sep : ascii) (before piece : string) :
  no_char sep piece = true ->
  split_at sep (before ++ String sep piece) = (split_at sep before ++ [ piece ])%list.
Proof.
  intros Hpiece. induction before as [|c before IH]; simpl.
  - rewrite Ascii.eqb_refl. now rewrite split_at_whole.
  - rewrite IH. destruct (Ascii.eqb c sep); [reflexivity|].
    pose proof (split_at_nonempty sep before) as Hne.
    destruct (split_at sep before); [contradiction | reflexivity].
Qed.

Lemma last_Forall {A : Type} (P : A -> Prop) (l : list A) (d : A) :
  Forall P l -> P d -> P (List.last l d).
Proof.
  induction 1 as [|x l Hx Hl IH]; intros Hd.
  - exact Hd.
  - destruct l; [exact Hx | now apply IH].
Qed.

Lemma no_char_app (c : ascii) (a b : string) :
  no_char c (a ++ b) = no_char c a && no_char c b.
Proof. apply all_chars_app. Qed.

Lemma no_char_drop (c : ascii) (n : nat) (s : string) :
  no_char c s = true -> no_char c (drop n s) = true.
Proof.
  revert s. induction n as [|n IH]; intros [|d s]; simpl; try easy.
  unfold no_char. simpl. intros [_ Hs]%andb_prop. now apply IH.
Qed.

Lemma no_char_replace (c : ascii) (s pattern replacement : string) :
  no_char c s = true -> no_char c replacement = true ->
  no_char c (replace s pattern replacement) = true.
Proof.
  intros Hs Hr. induction s as [|d s IH].
  - simpl. destruct pattern; [|reflexivity].
    now rewrite no_char_app, Hr.
  - cbn [replace]. destruct (String.prefix pattern (String d s)).
    + rewrite no_char_app, Hr. now rewrite no_char_drop.
    + unfold no_char in *. simpl in *. apply andb_prop in Hs as [Hd Hs].
      now rewrite Hd, IH.
Qed.

Lemma replace_first_occurrence (base rest : string) :
  no_char "." base = true ->
  replace (base ++ ".graphqls" ++ rest) ".graphqls" "" = base ++ rest.
Proof.
  intros Hbase. induction base as [|c base IH].
  - destruct rest; reflexivity.
  - unfold no_char in Hbase. simpl in Hbase. apply andb_prop in Hbase as [Hc Hbase].
    apply negb_true_iff in Hc.
    change ((String c base ++ ".graphqls" ++ rest))
      with (String c (base ++ ".graphqls" ++ rest)).
    cbn [replace String.prefix].
    destruct (ascii_dec "." c) as [<-|_]; [discriminate Hc|].
    rewrite (IH Hbase). reflexivity.
Qed.

Lemma split_listing_whole (a : string) :
  no_char "," a = true -> split_listing a = [ a ].
Proof.
  induction a as [|c a IH]; intros Ha.
  - reflexivity.
  - unfold no_char in Ha. simpl in Ha. apply andb_prop in Ha as [Hc Ha].
    apply negb_true_iff in Hc. cbn [split_listing]. rewrite Hc.
    now rewrite (IH Ha).
Qed.

Lemma split_listing_item (a b : string) :
  no_char "," a = true ->
  split_listing (a ++ ", " ++ b) = a :: split_listing b.
Proof.
  induction a as [|c a IH]; intros Ha.
  - reflexivity.
  - unfold no_char in Ha. simpl in Ha. apply andb_prop in Ha as [Hc Ha].
    apply negb_true_iff in Hc.
    change (String c a ++ ", " ++ b) with (String c (a ++ ", " ++ b)).
    cbn [split_listing]. rewrite Hc. now rewrite (IH Ha).
Qed.

Lemma split_listing_join (x : string) (l : list string) :
  Forall (fun s => no_char "," s = true) (x :: l) ->
  split_listing (join ", " (x :: l)) = x :: l.
Proof.
  revert x. induction l as [|y l IH]; intros x Hall.
  - apply split_listing_whole. now inversion Hall.
  - inversion Hall as [|? ? Hx Hrest]; subst.
    change (join ", " (x :: y :: l)) with (x ++ ", " ++ join ", " (y :: l)).
    rewrite split_listing_item by exact Hx. now rewrite (IH y Hrest).
Qed.

(** A listing joined from non-empty items without comma splits back into
    exactly those items. *)
Lemma items_join (l : list string) :
  Forall (fun s => no_char "," s = true) l ->
  Forall (fun s => s <> "") l ->
  items (join ", " l) = l.
Proof.
  destruct l as [|x l]; intros Hall Hne; [reflexivity|].
  inversion Hne as [|? ? Hx _]; subst.
  destruct x as [|c x]; [congruence|].
  transitivity (split_listing (join ", " (String c x :: l))).
  - destruct l; reflexivity.
  - now apply split_listing_join.
Qed.

Lemma is_Name_item (s : string) :
  is_Name s = true -> no_char "," s = true /\ s <> "".
Proof.
  destruct s as [|c s]; simpl; [discriminate|].
  intros [Hc Hs]%andb_prop. split; [|discriminate].
  assert (Hcomma : forall d, name_continue d = true -> negb (Ascii.eqb d ",") = true).
  { intros d Hd. destruct (Ascii.eqb_spec d ",") as [->|_]; [discriminate Hd | reflexivity]. }
  unfold no_char. simpl. rewrite Hcomma.
  - simpl. revert Hs. apply all_chars_weaken, Hcomma.
  - unfold name_continue. now rewrite Hc.
Qed.

Lemma get_listed {V : Type} (o : dict V) (k : string) :
  In k (keys o) -> exists v, get o k = Some v /\ In (k, v) o.
Proof.
  induction o as [|[k' v'] o IH]; simpl; intros Hin.
  - contradiction.
  - destruct (String.eqb_spec k k') as [->|Hne].
    + exists v'. split; [reflexivity | now left].
    + destruct Hin as [Heq|Hin]; [congruence|].
      destruct (IH Hin) as (v & Hget & Hv). exists v. split; [exact Hget | now right].
Qed.


(** ** The server's name *)

(** X1: the schema name derived from the command line never contains a
    slash, whatever the argument. *)
Theorem schemaName_has_no_slash (schemaArg : option string) :
  no_char "/" (schemaName schemaArg) = true.
Proof.
  unfold schemaName. destruct schemaArg as [arg|]; [|reflexivity].
  destruct (String.eqb arg ""); [reflexivity|].
  apply no_char_replace; [|reflexivity].
  unfold pop, split. apply last_Forall; [apply split_at_pieces | reflexivity].
Qed.

(** X2: for an argument whose last path segment is a base without dot
    followed by ".graphqls" and anything else, the schema name is the base
    followed by the rest: the directories and the first ".graphqls" are
    dropped, and only those. *)
Theorem schemaName_of_path (dir base rest : string) :
  no_char "/" base = true -> no_char "." base = true -> no_char "/" rest = true ->
  schemaName (Some (dir ++ "/" ++ base ++ ".graphqls" ++ rest)) = base ++ rest /\
  server_name (server_info (Some (dir ++ "/" ++ base ++ ".graphqls" ++ rest)))
  = "GraphQL Schema: " ++ base ++ rest.
Proof.
  intros Hslash Hdot Hrest.
  assert (Hname :
    schemaName (Some (dir ++ "/" ++ base ++ ".graphqls" ++ rest)) = base ++ rest).
  { unfold schemaName.
    replace (String.eqb (dir ++ "/" ++ base ++ ".graphqls" ++ rest) "") with false
      by (now destruct dir).
    unfold pop, split.
    change (dir ++ "/" ++ base ++ ".graphqls" ++ rest)
      with (dir ++ String "/" (base ++ ".graphqls" ++ rest)).
    rewrite split_at_last_piece.
    - rewrite last_last. now apply replace_first_occurrence.
    - rewrite !no_char_app, Hslash, Hrest. reflexivity. }
  split; [exact Hname|]. unfold server_info. cbn [server_name]. now rewrite Hname.
Qed.

(** ** Listings *)

(** X3: when the public type names are GraphQL names, the text of
    list-types splits at ", " into exactly the public type names, in the
    order of the type map. *)
Theorem list_types_items (schema : GraphQLSchema) :
  Forall (fun name => is_Name name = true) (public_type_names schema) ->
  exists listing,
    list_types schema = Return (text_result listing) /\
    items listing = public_type_names schema.
Proof.
  intros Hnames. exists (join ", " (public_type_names schema)).
  split; [reflexivity|].
  apply items_join; revert Hnames; apply Forall_impl; intros name Hname;
    now apply is_Name_item.
Qed.

(** X4: where a root operation type is present and its field names are
    GraphQL names, the text of its list tool splits at ", " into exactly the
    field names of the root, in the order of its field map. *)
Theorem list_root_fields_items (schema : GraphQLSchema) (op : operation)
    (root : RootType) (arg : string) :
  root_type schema op = Some root ->
  Forall (fun name => is_Name name = true) (keys (root_getFields root)) ->
  exists listing,
    call_tool (registry schema) (list_tool op) arg = Some (Return (text_result listing)) /\
    items listing = keys (root_getFields root).
Proof.
  intros Hroot Hnames. exists (join ", " (keys (root_getFields root))). split.
  - destruct (registry_dispatch_root schema op arg) as [-> _]. now rewrite Hroot.
  - apply items_join; revert Hnames; apply Forall_impl; intros name Hname;
      now apply is_Name_item.
Qed.

(** ** search-schema on any pattern *)


(** ** Types that are present *)

(** X6: for a type of the schema that is a scalar, a union or an enum,
    get-type-fields returns, as a text payload, the message that the type
    "is not an object type with fields", in which the queried name
    occurs. *)
Theorem get_type_fields_without_fields (schema : GraphQLSchema) (typeName : string)
    (t : GraphQLNamedType) :
  get (getTypeMap schema) typeName = Some t ->
  class t = GraphQLScalarType \/ class t = GraphQLUnionType \/ class t = GraphQLEnumType ->
  exists message,
    get_type_fields schema typeName = Return (text_result message) /\
    message = "Type " ++ DQUOTE ++ typeName ++ DQUOTE ++ " is not an object type with fields" /\
    Contains typeName message.
Proof.
  intros Hget Hclass.
  assert (Hfields : getFields t = None).
  { unfold getFields. destruct Hclass as [-> | [-> | ->]]; reflexivity. }
  eexists. split; [|split; [reflexivity|]].
  - unfold get_type_fields. now rewrite Hget, Hfields.
  - exists ("Type " ++ DQUOTE), (DQUOTE ++ " is not an object type with fields").
    now rewrite !string_app_assoc.
Qed.

(** X7: for every name in the type map, introspection names included,
    get-type answers with the printed definition or the summary of a type
    stored under that name, and get-type-fields with the field lines of that
    type or the message that it bears no fields: a name that list-types
    shows is never reported as not found. *)
Theorem listed_type_is_described (schema : GraphQLSchema) (typeName : string) :
  In typeName (type_names schema) ->
  exists t,
    In (typeName, t) (getTypeMap schema) /\
    get_type schema typeName
    = Return (text_result
        match astNode t with
        | Some node => print node
        | None => join LF (summary typeName t)
        end) /\
    get_type_fields schema typeName
    = Return (text_result
        match getFields t with
        | Some fields => join LF (map field_line fields)
        | None =>
          "Type " ++ DQUOTE ++ typeName ++ DQUOTE ++ " is not an object type with fields"
        end) /\
    (In typeName (public_type_names schema) <-> startsWith typeName "__" = false).
Proof.
  intros Hin. destruct (get_listed (getTypeMap schema) typeName Hin) as (t & Hget & Ht).
  exists t. split; [exact Ht|]. split; [|split].
  - unfold get_type. rewrite Hget. now destruct (astNode t).
  - unfold get_type_fields. rewrite Hget. destruct (getFields t) as [fields|]; [|reflexivity].
    do 3 f_equal. apply map_ext. now intros [fieldName field].
  - rewrite in_public_type_names. tauto.
Qed.

(** X14: where a root operation type is present, every field name its list
    tool shows is known to its get tool: the answer is the printed
    definition of a field stored under that name, or the text
    "Field not found or has no definition" when that field has no syntax
    node. *)
Theorem listed_root_field_is_defined (schema : GraphQLSchema) (op : operation)
    (root : RootType) (fieldName : string) :
  root_type schema op = Some root ->
  In fieldName (keys (root_getFields root)) ->
  exists field,
    In (fieldName, field) (root_getFields root) /\
    call_tool (registry schema) (get_tool op) fieldName
    = Some (Return (text_result
        match field_astNode field with
        | Some node => print node
        | None => "Field not found or has no definition"
        end)).
Proof.
  intros Hroot Hin.
  destruct (get_listed (root_getFields root) fieldName Hin) as (field & Hget & Hfield).
  exists field. split; [exact Hfield|].
  destruct (registry_dispatch_root schema op fieldName) as [_ ->].
  rewrite Hroot. unfold get_field. simpl. now rewrite Hget.
Qed.

(** ** The registry as a whole *)

Lemma registry_tool_names (schema : GraphQLSchema) :
  tool_names (registry schema) = (root_tools schema ++ schema_tools)%list.
Proof.
  unfold registry, register_tools, register_root, tool_names, root_tools. simpl.
  destruct (getQueryType schema), (getMutationType schema), (getSubscriptionType schema);
    reflexivity.
Qed.

Lemma schema_tools_registered (schema : GraphQLSchema) :
  incl schema_tools (tool_names (registry schema)).
Proof. rewrite registry_tool_names. apply incl_appr, incl_refl. Qed.

(** X8: the registered tools are, in this order, the list tool and the get
    tool of each root operation type the schema has (query, mutation,
    subscription), then list-types, get-type, get-type-fields and
    search-schema; no name is registered twice. *)
Theorem registered_tool_names (schema : GraphQLSchema) :
  tool_names (registry schema) = (root_tools schema ++ schema_tools)%list /\
  NoDup (tool_names (registry schema)) /\
  incl schema_tools (tool_names (registry schema)).
Proof.
  pose proof (registry_tool_names schema) as Hnames.
  split; [exact Hnames|]. rewrite Hnames. split.
  - unfold root_tools. simpl.
    destruct (getQueryType schema), (getMutationType schema), (getSubscriptionType schema);
      simpl; repeat constructor; simpl; intuition discriminate.
  - apply incl_appr, incl_refl.
Qed.

(** X9: whatever the tool name and the argument, an invocation through the
    registry finds no tool exactly when the name is not registered; when it
    returns, the result is one content item of type "text"; and it throws
    only for search-schema, with the exception the constructor of regular
    expressions threw on the argument. *)
Theorem registry_answers (schema : GraphQLSchema) (name arg : string) :
  match call_tool (registry schema) name arg with
  | None => ~ In name (tool_names (registry schema))
  | Some (Return result) =>
    In name (tool_names (registry schema)) /\ exists t, result = text_result t
  | Some (Throw e) => name = "search-schema" /\ RegExp_new arg "i" = Throw e
  end.
Proof.
  destruct (in_dec string_dec name (root_tools schema ++ schema_tools)%list) as [Hin|Hout].
  - assert (Hreg : In name (tool_names (registry schema))).
    { now rewrite registry_tool_names. }
    apply in_app_or in Hin as [Hroot|Hfixed].
    + unfold root_tools in Hroot. apply in_flat_map in Hroot as (op & _ & Hop).
      destruct (root_type schema op) as [root|] eqn:Hroot_type; [|contradiction].
      destruct Hop as [<-|[<-|[]]].
      * destruct (registry_dispatch_root schema op arg) as [-> _].
        rewrite Hroot_type. simpl. split; [exact Hreg|]. now eexists.
      * destruct (registry_dispatch_root schema op arg) as [_ ->].
        rewrite Hroot_type. simpl. split; [exact Hreg|]. now eexists.
    + destruct (registry_dispatch schema arg) as (Hlist & Hget & Hfields & Hsearch).
      destruct Hfixed as [<-|[<-|[<-|[<-|[]]]]].
      * rewrite Hlist. split; [exact Hreg|]. now eexists.
      * rewrite Hget. split; [exact Hreg|]. now eexists.
      * rewrite Hfields. split; [exact Hreg|]. now eexists.
      * rewrite Hsearch. unfold search_schema.
        destruct (RegExp_new arg "i") as [r|e].
        -- split; [exact Hreg|]. now eexists.
        -- now split.
  - rewrite <- registry_tool_names in Hout.
    unfold call_tool, find_tool.
    destruct (find _ (registeredTools (registry schema))) as [t|] eqn:Hfind; [|exact Hout].
    apply find_some in Hfind as [Ht Hname]. apply String.eqb_eq in Hname.
    exfalso. apply Hout. unfold tool_names. rewrite <- Hname. now apply in_map.
Qed.

(** ** Start-up, the other ways *)

(** X10: when the command line contains --help or -h, wherever and whatever
    else it contains, the script writes the usage text to the error stream
    and exits with status 0: it reads no file and creates no server. *)
Theorem help_exits_first (env : Env) :
  help_requested env = true ->
  main env initial
  = (Exit 0,
     {| stderr := [ usage_text ]; reads := []; server := None; connected := false |}).
Proof.
  intros Hhelp. rewrite main_run. unfold help_requested in Hhelp. now rewrite Hhelp.
Qed.

(** X11: without a help flag, when the schema file is read and buildSchema
    throws on its content, the script writes "Error loading schema: " with
    the error's message, and nothing else, to the error stream and exits
    with status 1, without a server. *)
Theorem unparsable_schema_is_fatal (env : Env) (schemaContent : string) (error : exception) :
  help_requested env = false ->
  readFile env (schemaPath env (nth_error (argv env) 0)) = Some schemaContent ->
  buildSchema env schemaContent = Throw error ->
  main env initial
  = (Exit 1,
     {| stderr := [ "Error loading schema: " ++ message error ];
        reads := [ schemaPath env (nth_error (argv env) 0) ];
        server := None;
        connected := false |}).
Proof.
  intros Hhelp Hread Hbuild. rewrite main_run, loadSchema_run. cbv zeta.
  unfold help_requested in Hhelp. now rewrite Hhelp, Hread, Hbuild.
Qed.

(** X12: without a help flag, when the schema file is read and parses, the
    script goes on to serve: nothing is written to the error stream, the one
    file read is the resolved schema path, and the connected server holds
    the tools registered for the parsed schema. *)
Theorem loaded_schema_is_served (env : Env) (schemaContent : string)
    (schema : GraphQLSchema) :
  help_requested env = false ->
  readFile env (schemaPath env (nth_error (argv env) 0)) = Some schemaContent ->
  buildSchema env schemaContent = Return schema ->
  main env initial
  = (Continue tt,
     {| stderr := [];
        reads := [ schemaPath env (nth_error (argv env) 0) ];
        server := Some (registry schema);
        connected := true |}) /\
  incl schema_tools (tool_names (registry schema)).
Proof.
  intros Hhelp Hread Hbuild. split; [|apply schema_tools_registered].
  rewrite main_run, loadSchema_run. cbv zeta.
  unfold help_requested in Hhelp. now rewrite Hhelp, Hread, Hbuild.
Qed.

(** X13: in every environment, the script either goes on to serve, with an
    empty error stream and a connected server holding the tools of some
    schema, or exits with status 0 or 1, with something on the error stream
    and no server; it exits with status 0 exactly when help was asked for,
    and the files it reads are none when help was asked for and otherwise
    the one resolved from the first argument, or from "schema.graphqls"
    when there is no argument. *)
Theorem main_outcomes (env : Env) :
  (fst (main env initial) = Exit 0 <-> help_requested env = true) /\
  reads (snd (main env initial))
  = (if help_requested env then []
     else [ resolve env (nullish (nth_error (argv env) 0) "schema.graphqls") ]) /\
  match fst (main env initial) with
  | Continue _ =>
    stderr (snd (main env initial)) = [] /\
    connected (snd (main env initial)) = true /\
    exists schema, server (snd (main env initial)) = Some (registry schema)
  | Exit code =>
    (code = 0 \/ code = 1) /\
    stderr (snd (main env initial)) <> [] /\
    server (snd (main env initial)) = None /\
    connected (snd (main env initial)) = false
  end.
Proof.
  rewrite main_run, loadSchema_run. cbv zeta. unfold help_requested, schemaPath.
  destruct (includes (argv env) "--help" || includes (argv env) "-h").
  - simpl. repeat split; auto; discriminate.
  - destruct (readFile env _) as [schemaContent|].
    + destruct (buildSchema env schemaContent) as [schema|error]; simpl.
      * repeat split; try discriminate. now exists schema.
      * repeat split; auto; discriminate.
    + simpl. repeat split; auto; discriminate.
Qed.

End Properties.

(* ================================================================== *)
(** * The reference host on the patterns used below *)
(* ================================================================== *)

#[local] Existing Instance Reference.host.


Lemma test_from_start (r : Reference.re) (s : string) :
  Reference.matches_at (list_ascii_of_string s) r 0 = true -> Reference.test r s = true.
Proof.
  intros Hstart. unfold Reference.test. simpl. now rewrite Hstart.
Qed.

(** The empty pattern compiles, and matches at the start of every string. *)
Lemma empty_pattern_matches_everything (s : string) :
  RegExp_new "" "i" = Return Reference.Empty /\ RegExp_test Reference.Empty s = true.
Proof.
  split; [reflexivity|]. now apply test_from_start.
Qed.


(* ================================================================== *)
(** * The properties on the sample schema *)
(* ================================================================== *)

(** C1, refuted as stated: on the sample schema the empty pattern lists
    every public type and every field of the public types, not "None". *)
Lemma search_schema_empty_pattern :
  search_schema Sample.schema ""
  = Return (text_result
      ("Matching types: Query, ID, User, String, Boolean" ++ LF
       ++ "Matching fields: Query.user, User.id, User.name, User.friends")) /\
  "Matching types: Query, ID, User, String, Boolean" ++ LF
  ++ "Matching fields: Query.user, User.id, User.name, User.friends"
  <> nothing_found.
Proof.
  split.
  - vm_compute. reflexivity.
  - discriminate.
Qed.

Lemma search_schema_no_match_witness :
  (RegExp_new "zzz" "i"
   = Return (Reference.Seq (Reference.Seq (Reference.Char "z") (Reference.Char "z"))
                           (Reference.Char "z")) /\
   Forall (fun name => RegExp_test
                         (Reference.Seq (Reference.Seq (Reference.Char "z") (Reference.Char "z"))
                                        (Reference.Char "z")) name = false)
          (type_names Sample.schema ++ all_field_names Sample.schema)) /\
  search_schema Sample.schema "zzz" = Return (text_result nothing_found) /\
  lines nothing_found = [ "Matching types: None"; "Matching fields: None" ].
Proof.
  assert (Hnew : RegExp_new "zzz" "i"
                 = Return (Reference.Seq (Reference.Seq (Reference.Char "z") (Reference.Char "z"))
                                         (Reference.Char "z"))) by reflexivity.
  assert (Hnone : Forall (fun name => RegExp_test
                         (Reference.Seq (Reference.Seq (Reference.Char "z") (Reference.Char "z"))
                                        (Reference.Char "z")) name = false)
          (type_names Sample.schema ++ all_field_names Sample.schema)).
  { vm_compute. repeat constructor. }
  split; [split; assumption|].
  exact (@search_schema_no_match Reference.host Sample.schema "zzz" _ Hnew Hnone).
Defined.


Lemma search_schema_throws_witness :
  RegExp_new "(" "i" = Throw (SyntaxError "Unterminated group") /\
  search_schema Sample.schema "(" = Throw (SyntaxError "Unterminated group") /\
  call_tool (registry Sample.schema) "search-schema" "("
  = Some (Throw (SyntaxError "Unterminated group")) /\
  (forall t, search_schema Sample.schema "(" <> Return (text_result t)) /\
  (exists t, get_type Sample.schema "(" = Return (text_result t)) /\
  (exists t, get_type_fields Sample.schema "(" = Return (text_result t)).
Proof.
  split; [reflexivity|].
  exact (@search_schema_throws Reference.host Sample.schema "(" _ eq_refl).
Defined.

Lemma unknown_type_not_found_witness :
  ~ In "Nope" (type_names Sample.schema) /\
  exists t,
    get_type Sample.schema "Nope" = Return (text_result t) /\
    get_type_fields Sample.schema "Nope" = Return (text_result t) /\
    Contains "not found" t /\ Contains "Nope" t.
Proof.
  assert (Habsent : ~ In "Nope" (type_names Sample.schema)).
  { simpl. intros Hin. repeat (destruct Hin as [Hin|Hin]; [discriminate Hin|]). exact Hin. }
  split; [exact Habsent|].
  exact (@unknown_type_not_found Reference.host Sample.schema "Nope" Habsent).
Defined.


(** C8, refuted as stated: the summary of the sample's [__Type], whose
    description has two paragraphs, has five lines. *)
Lemma get_type_summary_five_lines :
  exists t body,
    get (getTypeMap Sample.schema) "__Type" = Some t /\
    astNode t = None /\
    get_type Sample.schema "__Type" = Return (text_result body) /\
    List.length (lines body) = 5 /\
    List.length (lines body) <> 3.
Proof.
  eexists. eexists.
  split; [reflexivity|]. split; [reflexivity|]. split; [reflexivity|].
  split; [reflexivity|]. vm_compute. discriminate.
Qed.

Lemma get_type_present_witness :
  get (getTypeMap Sample.schema) "Boolean"
  = Some (Sample.builtin "The Boolean scalar type represents true or false."
                         GraphQLScalarType) /\
  get_type Sample.schema "Boolean"
  = Return (text_result
      ("Type: Boolean" ++ LF
       ++ "Description: The Boolean scalar type represents true or false." ++ LF
       ++ "Kind: GraphQLScalarType")) /\
  List.length
    (lines ("Type: Boolean" ++ LF
            ++ "Description: The Boolean scalar type represents true or false." ++ LF
            ++ "Kind: GraphQLScalarType")) = 3.
Proof.
  split; [reflexivity|].
  destruct (@get_type_present Reference.host Sample.schema "Boolean" _ eq_refl)
    as [_ Hsummary].
  destruct (Hsummary eq_refl) as [Htext Hlines].
  split; [exact Htext|].
  exact (f_equal (@List.length string) (Hlines eq_refl eq_refl)).
Defined.

Lemma get_root_field_witness :
  root_type Sample.schema Query = Some {| root_getFields := Sample.Query_fields |} /\
  call_tool (registry Sample.schema) "get-query-field" "user"
  = Some (Return (text_result "user(id: ID!): User")) /\
  call_tool (registry Sample.schema) "get-query-field" "missing"
  = Some (Return (text_result "Field not found or has no definition")).
Proof.
  split; [reflexivity|]. split.
  - exact (proj1 (@get_root_field Reference.host Sample.schema Query _ "user" eq_refl)
             Sample.user_field "user(id: ID!): User" eq_refl eq_refl).
  - exact (proj1 (proj2 (@get_root_field Reference.host Sample.schema Query _ "missing" eq_refl))
             (or_introl eq_refl)).
Defined.


(** ** The handlers run on the sample *)

Example sample_tools :
  tool_names (registry Sample.schema)
  = [ "list-query-fields"; "get-query-field"; "list-types"; "get-type";
      "get-type-fields"; "search-schema" ].
Proof. reflexivity. Qed.

Example sample_list_query_fields :
  call_tool (registry Sample.schema) "list-query-fields" ""
  = Some (Return (text_result "user")).
Proof. reflexivity. Qed.

Example sample_no_mutation_tool :
  call_tool (registry Sample.schema) "list-mutation-fields" "" = None /\
  call_tool (registry Sample.schema) "get-mutation-field" "user" = None.
Proof. split; reflexivity. Qed.

Example sample_list_types :
  list_types Sample.schema = Return (text_result "Query, ID, User, String, Boolean").
Proof. reflexivity. Qed.

Example sample_get_type_fields :
  get_type_fields Sample.schema "User"
  = Return (text_result ("id: ID!" ++ LF ++ "name: String" ++ LF ++ "friends: [User!]!")) /\
  get_type_fields Sample.schema "ID"
  = Return (text_result ("Type " ++ DQUOTE ++ "ID" ++ DQUOTE
                         ++ " is not an object type with fields")).
Proof. split; reflexivity. Qed.

Example sample_search_is_case_insensitive :
  search_schema Sample.schema "^USER$"
  = Return (text_result ("Matching types: User" ++ LF ++ "Matching fields: Query.user")).
Proof. vm_compute. reflexivity. Qed.

Example reference_syntax_errors :
  Reference.parse "a**" = Throw (SyntaxError "Nothing to repeat") /\
  Reference.parse "a)" = Throw (SyntaxError "Unmatched ')'") /\
  Reference.parse "(a|b" = Throw (SyntaxError "Unterminated group") /\
  Reference.parse "[a-z]" = Throw (OutsideFragment "[a-z]").
Proof. repeat split; reflexivity. Qed.

Example help_exits_with_status_zero :
  main {| argv := [ "-h" ]; resolve := fun path => path;
          readFile := fun _ => None; buildSchema := fun _ => Return Sample.schema |}
       initial
  = (Exit 0,
     {| stderr := [ usage_text ]; reads := []; server := None; connected := false |}).
Proof. reflexivity. Qed.

(** ** Further properties on the samples *)

Lemma schemaName_of_path_witness :
  (no_char "/" "custom-schema" = true /\ no_char "." "custom-schema" = true /\
   no_char "/" "" = true) /\
  schemaName (Some ("/absolute/path/to" ++ "/" ++ "custom-schema" ++ ".graphqls" ++ ""))
  = "custom-schema" ++ "" /\
  server_name
    (server_info (Some ("/absolute/path/to" ++ "/" ++ "custom-schema" ++ ".graphqls" ++ "")))
  = "GraphQL Schema: " ++ "custom-schema" ++ "".
Proof.
  split; [repeat split|].
  exact (@schemaName_of_path "/absolute/path/to" "custom-schema" "" eq_refl eq_refl eq_refl).
Defined.

Lemma list_types_items_witness :
  Forall (fun name => is_Name name = true) (public_type_names Sample.schema) /\
  exists listing,
    list_types Sample.schema = Return (text_result listing) /\
    items listing = public_type_names Sample.schema.
Proof.
  assert (Hnames : Forall (fun name => is_Name name = true) (public_type_names Sample.schema)).
  { vm_compute. repeat constructor. }
  split; [exact Hnames|].
  exact (@list_types_items Reference.host Sample.schema Hnames).
Defined.

Lemma list_root_fields_items_witness :
  root_type Sample.schema Query = Some {| root_getFields := Sample.Query_fields |} /\
  exists listing,
    call_tool (registry Sample.schema) "list-query-fields" ""
    = Some (Return (text_result listing)) /\
    items listing = [ "user" ].
Proof.
  split; [reflexivity|].
  exact (@list_root_fields_items Reference.host Sample.schema Query _ "" eq_refl
           (Forall_cons "user" eq_refl (Forall_nil _))).
Defined.


Lemma get_type_fields_without_fields_witness :
  get (getTypeMap Runs.with_mutation) "Node"
  = Some {| description := None; astNode := Some "union Node = User";
            class := GraphQLUnionType |} /\
  exists message,
    get_type_fields Runs.with_mutation "Node" = Return (text_result message) /\
    message = "Type " ++ DQUOTE ++ "Node" ++ DQUOTE ++ " is not an object type with fields" /\
    Contains "Node" message.
Proof.
  split; [reflexivity|].
  exact (@get_type_fields_without_fields Reference.host Runs.with_mutation "Node" _
           eq_refl (or_intror (or_introl eq_refl))).
Defined.

Lemma listed_type_is_described_witness :
  In "__Type" (type_names Sample.schema) /\
  exists t,
    In ("__Type", t) (getTypeMap Sample.schema) /\
    get_type Sample.schema "__Type"
    = Return (text_result
        match astNode t with
        | Some node => print node
        | None => join LF (summary "__Type" t)
        end) /\
    get_type_fields Sample.schema "__Type"
    = Return (text_result
        match getFields t with
        | Some fields => join LF (map field_line fields)
        | None =>
          "Type " ++ DQUOTE ++ "__Type" ++ DQUOTE ++ " is not an object type with fields"
        end) /\
    (In "__Type" (public_type_names Sample.schema) <-> startsWith "__Type" "__" = false).
Proof.
  assert (Hin : In "__Type" (type_names Sample.schema)).
  { simpl. auto 10. }
  split; [exact Hin|].
  exact (@listed_type_is_described Reference.host Sample.schema "__Type" Hin).
Defined.

Lemma help_exits_first_witness :
  help_requested Runs.asking_help = true /\
  main Runs.asking_help initial
  = (Exit 0,
     {| stderr := [ usage_text ]; reads := []; server := None; connected := false |}).
Proof.
  split; [reflexivity|].
  exact (@help_exits_first Reference.host Runs.asking_help eq_refl).
Defined.

Lemma unparsable_schema_is_fatal_witness :
  (help_requested Runs.unparsable = false /\
   readFile Runs.unparsable "/srv/api/v1.graphqls" = Some "type {") /\
  main Runs.unparsable initial
  = (Exit 1,
     {| stderr := [ "Error loading schema: "
                    ++ message (GraphQLError "Syntax Error: Expected Name, found {.") ];
        reads := [ schemaPath Runs.unparsable (nth_error (argv Runs.unparsable) 0) ];
        server := None;
        connected := false |}).
Proof.
  split; [split; reflexivity|].
  exact (@unparsable_schema_is_fatal Reference.host Runs.unparsable "type {" _
           eq_refl eq_refl eq_refl).
Defined.

Lemma loaded_schema_is_served_witness :
  (help_requested Runs.serving = false /\
   readFile Runs.serving "/srv/api/v1.graphqls" = Some Runs.document) /\
  main Runs.serving initial
  = (Continue tt,
     {| stderr := [];
        reads := [ schemaPath Runs.serving (nth_error (argv Runs.serving) 0) ];
        server := Some (registry Sample.schema);
        connected := true |}) /\
  incl schema_tools (tool_names (registry Sample.schema)).
Proof.
  split; [split; reflexivity|].
  exact (@loaded_schema_is_served Reference.host Runs.serving Runs.document Sample.schema
           eq_refl eq_refl eq_refl).
Defined.

Lemma listed_root_field_is_defined_witness :
  (root_type Sample.schema Query = Some {| root_getFields := Sample.Query_fields |} /\
   In "user" (keys Sample.Query_fields)) /\
  exists field,
    In ("user", field) Sample.Query_fields /\
    call_tool (registry Sample.schema) "get-query-field" "user"
    = Some (Return (text_result
        match field_astNode field with
        | Some node => print node
        | None => "Field not found or has no definition"
        end)).
Proof.
  split; [split; [reflexivity | now left]|].
  exact (@listed_root_field_is_defined Reference.host Sample.schema Query _ "user"
           eq_refl (or_introl eq_refl)).
Defined.
